(** * a11y-core: focus management, live-region announcements and the
      locale registry, embedded from the TypeScript sources.

    - [Focus]        : a11y-core/src/focus.ts
    - [ScreenReader] : the screen-reader utilities (announceToScreenReader)
    - [Locales]      : a11y-core/src/locales/{index,en,sv}.ts

    JavaScript code is stateful and may throw, so every operation is a
    computation in a small state-and-exception monad [JS St A].  The
    browser (document, focus, listeners, timers, console) is an explicit
    [World]; the module-level variables of the locale module are an
    explicit [LocaleState]. *)

From Stdlib Require Import ZArith Lia Sorted.
From stdpp Require Import base option list strings gmap.

Open Scope string_scope.

(** ** Exceptions and the state-and-exception monad *)

Inductive JSError :=
  | TypeError
  | ReferenceError
  | NotFoundError.

Inductive Outcome (St A : Type) :=
  | Returned (a : A) (s : St)
  | Thrown (e : JSError) (s : St).
Arguments Returned {St A} a s.
Arguments Thrown {St A} e s.

Definition JS (St A : Type) : Type := St -> Outcome St A.

#[global] Instance JS_ret {St} : MRet (JS St) :=
  fun A (a : A) s => Returned a s.

#[global] Instance JS_bind {St} : MBind (JS St) :=
  fun A B (k : A -> JS St B) (m : JS St A) s =>
    match m s with
    | Returned a s' => k a s'
    | Thrown e s' => Thrown e s'
    end.

Definition throw {St A} (e : JSError) : JS St A := fun s => Thrown e s.
Definition gets {St A} (f : St -> A) : JS St A := fun s => Returned (f s) s.
Definition modify {St} (f : St -> St) : JS St unit := fun s => Returned tt (f s).

(** The state a computation ends in, returned or thrown. *)
Definition finalState {St A} (o : Outcome St A) : St :=
  match o with Returned _ s => s | Thrown _ s => s end.

(** The value a computation returned, if it returned. *)
Definition value {St A} (o : Outcome St A) : option A :=
  match o with Returned a _ => Some a | Thrown _ _ => None end.

(** ** The console

    Only the level and the first argument of each console call are
    recorded. *)

Inductive LogLevel := LogError | LogWarn.

Record LogEntry := mkLog { level : LogLevel; text : string }.

#[global] Instance LogLevel_eq_dec : EqDecision LogLevel.
Proof. solve_decision. Defined.
#[global] Instance LogEntry_eq_dec : EqDecision LogEntry.
Proof. solve_decision. Defined.

(** ** Plain objects

    A plain object literal has own properties and inherits from
    Object.prototype.  The [in] operator and property reads see the
    inherited names as well. *)

Definition objectPrototypeKeys : list string :=
  [ "constructor"; "__defineGetter__"; "__defineSetter__"; "hasOwnProperty";
    "__lookupGetter__"; "__lookupSetter__"; "isPrototypeOf";
    "propertyIsEnumerable"; "toString"; "valueOf"; "__proto__";
    "toLocaleString" ].

Inductive JSValue :=
  | VUndefined
  | VString (s : string)
  | VObject (t : gmap string string)   (* an object whose own properties are strings *)
  | VBuiltin (name : string).          (* Object.prototype or one of its members *)

#[global] Instance JSValue_eq_dec : EqDecision JSValue.
Proof. solve_decision. Defined.

(** ToBoolean *)
Definition truthy (v : JSValue) : bool :=
  match v with
  | VUndefined => false
  | VString s => negb (bool_decide (s = ""))
  | VObject _ => true
  | VBuiltin _ => true
  end.

(** [key in obj] for a plain object with string-valued own properties. *)
Definition inOp (key : string) (obj : gmap string string) : bool :=
  bool_decide (is_Some (obj !! key)) || bool_decide (key ∈ objectPrototypeKeys).

(** [obj[key]] for such an object. *)
Definition getMember (obj : gmap string string) (key : string) : JSValue :=
  match obj !! key with
  | Some s => VString s
  | None => if bool_decide (key ∈ objectPrototypeKeys) then VBuiltin key else VUndefined
  end.

(** Property read [v.key] on a message table, as the callers of
    getMessages() use it.  Reads on other values are not covered
    ([None]). *)
Definition member (v : JSValue) (key : string) : option JSValue :=
  match v with
  | VObject t => Some (getMember t key)
  | _ => None
  end.

(** The double-quote character, for the template strings of the log
    messages. *)
Definition dquote : string := String (Ascii.ascii_of_nat 34) EmptyString.

(** ** The locale registry (locales/index.ts, locales/en.ts, locales/sv.ts) *)

Module Locales.

(** The keys of the A11yMessages interface, in declaration order. *)
Definition A11yMessagesKeys : list string :=
  [ "skipToContent"; "mainNavigation"; "userMenu"; "breadcrumb"; "pagination";
    "siteNavigation"; "footerNavigation";
    "close"; "open"; "save"; "cancel"; "delete"; "edit"; "submit"; "search";
    "loading"; "menu";
    "nextPage"; "previousPage"; "currentPage"; "goToPage";
    "home"; "dashboard"; "settings"; "profile";
    "login"; "logout"; "register"; "account";
    "customers"; "companies"; "modules";
    "required"; "optional"; "error"; "success" ].

(** locales/en.ts *)
Definition en : gmap string string :=
  list_to_map
    [ ("skipToContent", "Skip to main content");
      ("mainNavigation", "Main navigation");
      ("userMenu", "User menu");
      ("breadcrumb", "Breadcrumb");
      ("pagination", "Pagination");
      ("siteNavigation", "Site navigation");
      ("footerNavigation", "Footer navigation");
      ("close", "Close");
      ("open", "Open");
      ("save", "Save");
      ("cancel", "Cancel");
      ("delete", "Delete");
      ("edit", "Edit");
      ("submit", "Submit");
      ("search", "Search");
      ("loading", "Loading");
      ("menu", "Menu");
      ("nextPage", "Next page");
      ("previousPage", "Previous page");
      ("currentPage", "Current page");
      ("goToPage", "Go to page");
      ("home", "Home");
      ("dashboard", "Dashboard");
      ("settings", "Settings");
      ("profile", "Profile");
      ("login", "Log in");
      ("logout", "Log out");
      ("register", "Register");
      ("account", "Account");
      ("customers", "Customers");
      ("companies", "Companies");
      ("modules", "Modules");
      ("required", "Required");
      ("optional", "Optional");
      ("error", "Error");
      ("success", "Success") ].

(** locales/sv.ts *)
Definition sv : gmap string string :=
  list_to_map
    [ ("skipToContent", "Hoppa till huvudinnehåll");
      ("mainNavigation", "Huvudnavigering");
      ("userMenu", "Användarmeny");
      ("breadcrumb", "Navigeringsstig");
      ("pagination", "Sidnumrering");
      ("siteNavigation", "Webbplatsnavigering");
      ("footerNavigation", "Sidfot navigering");
      ("close", "Stäng");
      ("open", "Öppna");
      ("save", "Spara");
      ("cancel", "Avbryt");
      ("delete", "Ta bort");
      ("edit", "Redigera");
      ("submit", "Skicka");
      ("search", "Sök");
      ("loading", "Laddar");
      ("menu", "Meny");
      ("nextPage", "Nästa sida");
      ("previousPage", "Föregående sida");
      ("currentPage", "Nuvarande sida");
      ("goToPage", "Gå till sida");
      ("home", "Hem");
      ("dashboard", "Översikt");
      ("settings", "Inställningar");
      ("profile", "Profil");
      ("login", "Logga in");
      ("logout", "Logga ut");
      ("register", "Registrera");
      ("account", "Konto");
      ("customers", "Kunder");
      ("companies", "Företag");
      ("modules", "Moduler");
      ("required", "Obligatorisk");
      ("optional", "Valfri");
      ("error", "Fel");
      ("success", "Lyckades") ].

(** [validateLocale]: every key is in the object and its value is a
    string.  An inherited member is a function, not a string. *)
Definition validateLocale (locale : gmap string string) (keys : list string) : bool :=
  forallb (fun key =>
             inOp key locale &&
             match getMember locale key with VString _ => true | _ => false end)
          keys.

(** The [localeData] object: a plain object used as a map from locale
    code to message table.  Reading [localeData[k]] goes through the
    prototype chain, and assigning [localeData['__proto__']] replaces
    the object's prototype instead of creating an own property. *)
Record LocaleData := mkLocaleData {
  entries : gmap string (gmap string string);
  prototype : option (gmap string string)   (* None: Object.prototype *)
}.

Definition localeDataGet (ld : LocaleData) (k : string) : JSValue :=
  if bool_decide (k = "__proto__") then
    match prototype ld with
    | Some t => VObject t
    | None => VBuiltin "__proto__"
    end
  else
    match entries ld !! k with
    | Some t => VObject t
    | None => getMember (default ∅ (prototype ld)) k
    end.

Definition localeDataSet (ld : LocaleData) (k : string) (t : gmap string string)
  : LocaleData :=
  if bool_decide (k = "__proto__") then
    {| entries := entries ld; prototype := Some t |}
  else
    {| entries := <[k := t]> (entries ld); prototype := prototype ld |}.

(** [Object.keys(localeData)] as a set. *)
Definition registered (ld : LocaleData) : gset string := dom (entries ld).

(** The module-level variables, and the console. *)
Record LocaleState := mkLocaleState {
  localeData : LocaleData;
  currentLocale : string;
  messages : JSValue;
  console : list LogEntry
}.

Definition initial : LocaleState :=
  {| localeData := {| entries := {[ "en" := en; "sv" := sv ]}; prototype := None |};
     currentLocale := "en";
     messages := VObject en;
     console := [] |}.

Definition log (lv : LogLevel) (msg : string) : JS LocaleState unit :=
  modify (fun s => {| localeData := localeData s; currentLocale := currentLocale s;
                      messages := messages s;
                      console := console s ++ [mkLog lv msg] |}).

Definition setLocaleData (ld : LocaleData) : JS LocaleState unit :=
  modify (fun s => {| localeData := ld; currentLocale := currentLocale s;
                      messages := messages s; console := console s |}).

Definition setCurrent (code : string) (m : JSValue) : JS LocaleState unit :=
  modify (fun s => {| localeData := localeData s; currentLocale := code;
                      messages := m; console := console s |}).

(** The list checked by registerLocale. *)
Definition requiredKeys : list string :=
  [ "skipToContent"; "mainNavigation"; "userMenu"; "breadcrumb"; "pagination";
    "siteNavigation"; "footerNavigation"; "close"; "open"; "save"; "cancel";
    "delete"; "edit"; "submit"; "search"; "loading"; "menu"; "nextPage";
    "previousPage"; "currentPage"; "goToPage"; "home"; "dashboard"; "settings";
    "profile"; "login"; "logout"; "register"; "account"; "customers"; "companies";
    "modules" ].

(** [registerLocale(locale, localeMessages)].  [None] stands for an
    argument that is null, undefined or not an object. *)
Definition registerLocale (locale : string) (localeMessages : option (gmap string string))
  : JS LocaleState unit :=
  if bool_decide (locale = "") then
    log LogError "[a11y-core] registerLocale: locale code is required"
  else
    match localeMessages with
    | None =>
        log LogError
          "[a11y-core] registerLocale: localeMessages must be an object with all A11yMessages keys"
    | Some table =>
        let missingKeys := filter (fun key => negb (inOp key table) = true) requiredKeys in
        if bool_decide (0 < length missingKeys)%nat then
          log LogError
            ("[a11y-core] registerLocale: Missing required message keys for locale "
               ++ dquote ++ locale ++ dquote ++ ":")
        else
          ld ← gets localeData;
          setLocaleData (localeDataSet ld locale table)
    end.

(** [setLocale(locale)].  The function is declared async but awaits
    nothing: its body runs to completion when it is called. *)
Definition setLocale (locale : string) : JS LocaleState unit :=
  if bool_decide (locale = "") then
    log LogError "[a11y-core] setLocale: locale code is required"
  else
    ld ← gets localeData;
    if negb (truthy (localeDataGet ld locale)) then
      log LogWarn ("[a11y-core] setLocale: Locale " ++ dquote ++ locale ++ dquote
                     ++ " not found. Falling back to English.");;
      setCurrent "en" (localeDataGet ld "en")
    else
      setCurrent locale (localeDataGet ld locale).

Definition getCurrentLocale : JS LocaleState string := gets currentLocale.
Definition getMessages : JS LocaleState JSValue := gets messages.

End Locales.

(** ** The browser environment *)

Module Dom.

(** An element as the code observes it.  [nodeId] is the identity of
    the object; [===] on elements compares it. *)
Record Element := mkElement {
  nodeId : nat;
  isHTMLElement : bool;                  (* instanceof HTMLElement *)
  isHTMLInHTMLDocument : bool;           (* in the HTML namespace, and its node
                                            document is an HTML document *)
  tagName : string;                      (* upper case for an HTML element in
                                            an HTML document *)
  tabIndex : Z;                          (* the tabIndex property *)
  attributes : list (string * string);   (* content attributes by qualified name *)
  style : list (string * string);
  textContent : string
}.

#[global] Instance Element_eq_dec : EqDecision Element.
Proof. solve_decision. Defined.

(** A subtree of the document. *)
#[warnings="-register-all"]
Inductive Node := Nd (elt : Element) (children : list Node).

Definition elementOf (n : Node) : Element := match n with Nd e _ => e end.
Definition childNodes (n : Node) : list Node := match n with Nd _ cs => cs end.

Fixpoint inclusiveDescendants (n : Node) : list Element :=
  match n with
  | Nd e cs => e :: flat_map inclusiveDescendants cs
  end.

(** The descendants of a node in document (pre-)order. *)
Definition descendants (n : Node) : list Element :=
  flat_map inclusiveDescendants (childNodes n).

(** *** Attributes *)

Definition asciiLower (c : Ascii.ascii) : Ascii.ascii :=
  let n := Ascii.nat_of_ascii c in
  if (65 <=? n)%nat && (n <=? 90)%nat then Ascii.ascii_of_nat (n + 32) else c.

Fixpoint toLowerCase (s : string) : string :=
  match s with
  | EmptyString => EmptyString
  | String c s' => String (asciiLower c) (toLowerCase s')
  end.

Definition asciiUpper (c : Ascii.ascii) : Ascii.ascii :=
  let n := Ascii.nat_of_ascii c in
  if (97 <=? n)%nat && (n <=? 122)%nat then Ascii.ascii_of_nat (n - 32) else c.

Fixpoint toUpperCase (s : string) : string :=
  match s with
  | EmptyString => EmptyString
  | String c s' => String (asciiUpper c) (toUpperCase s')
  end.

Fixpoint assoc (k : string) (l : list (string * string)) : option string :=
  match l with
  | [] => None
  | (k', v) :: l' => if bool_decide (k' = k) then Some v else assoc k l'
  end.

Fixpoint assocSet (k v : string) (l : list (string * string)) : list (string * string) :=
  match l with
  | [] => [(k, v)]
  | (k', v') :: l' => if bool_decide (k' = k) then (k, v) :: l' else (k', v') :: assocSet k v l'
  end.

(** getAttribute / hasAttribute / setAttribute lower-case the name they
    are given on an HTML element in an HTML document, and on no other
    element (an svg element inside a page, an element of an XML
    document): there the name is looked up as it is written. *)
Definition attributeName (name : string) (e : Element) : string :=
  if isHTMLInHTMLDocument e then toLowerCase name else name.

(** getAttribute returns null ([None]) when the attribute is absent. *)
Definition getAttribute (name : string) (e : Element) : option string :=
  assoc (attributeName name e) (attributes e).

Definition hasAttribute (name : string) (e : Element) : bool :=
  bool_decide (is_Some (getAttribute name e)).

Definition setAttribute (name value : string) (e : Element) : Element :=
  {| nodeId := nodeId e; isHTMLElement := isHTMLElement e;
     isHTMLInHTMLDocument := isHTMLInHTMLDocument e; tagName := tagName e;
     tabIndex := tabIndex e;
     attributes := assocSet (attributeName name e) value (attributes e);
     style := style e; textContent := textContent e |}.

Definition assignStyle (decls : list (string * string)) (e : Element) : Element :=
  {| nodeId := nodeId e; isHTMLElement := isHTMLElement e;
     isHTMLInHTMLDocument := isHTMLInHTMLDocument e; tagName := tagName e;
     tabIndex := tabIndex e; attributes := attributes e;
     style := foldl (fun st kv => assocSet kv.1 kv.2 st) (style e) decls;
     textContent := textContent e |}.

Definition setTextContent (t : string) (e : Element) : Element :=
  {| nodeId := nodeId e; isHTMLElement := isHTMLElement e;
     isHTMLInHTMLDocument := isHTMLInHTMLDocument e; tagName := tagName e;
     tabIndex := tabIndex e; attributes := attributes e;
     style := style e; textContent := t |}.

(** *** Selectors: the fragment of CSS the code uses

    A type selector is compared with the local name of the element: for
    an HTML element in an HTML document that is the tag name in lower
    case; for any other element the name as the element carries it,
    compared case-sensitively.  Element names carry no namespace prefix
    here.  The attribute names of the selectors the code uses are
    written in lower case, and so are compared with the attribute names
    as they are. *)

Definition localNameOf (e : Element) : string :=
  if isHTMLInHTMLDocument e then toLowerCase (tagName e) else tagName e.

Inductive Compound :=
  | SelType (name : string)              (* button *)
  | SelHas (attr : string)               (* [href] *)
  | SelAttrIs (attr value : string)      (* [tabindex="-1"] *)
  | SelNot (c : Compound)                (* :not(...) *)
  | SelBoth (c1 c2 : Compound).          (* c1c2 *)

Fixpoint matchesCompound (c : Compound) (e : Element) : bool :=
  match c with
  | SelType name => bool_decide (localNameOf e = name)
  | SelHas attr => bool_decide (is_Some (assoc attr (attributes e)))
  | SelAttrIs attr value => bool_decide (assoc attr (attributes e) = Some value)
  | SelNot c' => negb (matchesCompound c' e)
  | SelBoth c1 c2 => matchesCompound c1 e && matchesCompound c2 e
  end.

(** A selector list [c1, c2, ...]. *)
Definition matches (sel : list Compound) (e : Element) : bool :=
  existsb (fun c => matchesCompound c e) sel.

Definition querySelectorAll (sel : list Compound) (n : Node) : list Element :=
  filter (fun e => matches sel e = true) (descendants n).

(** [l[i]] on an array-like: undefined ([None]) out of range. *)
Definition index {A} (l : list A) (i : Z) : option A :=
  if (i <? 0)%Z then None else l !! Z.to_nat i.

(** *** Listeners, events, timers *)

(** The closure [handleKeyDown] of one trapFocus call: its identity and
    the two variables it captures. *)
Record Handler := mkHandler {
  closureId : nat;
  firstFocusable : option Element;   (* None: undefined *)
  lastFocusable : option Element
}.

Record Listener := mkListener {
  target : nat;
  eventType : string;
  callback : Handler
}.

Record KeyboardEvent := mkKeyboardEvent {
  key : string;
  shiftKey : bool;
  cancelable : bool;          (* true for the key presses a browser dispatches *)
  defaultPrevented : bool
}.

(** A pending setTimeout callback.  The only callback the code
    schedules is [() => document.body.removeChild(announcement)]. *)
Record Timer := mkTimer {
  due : Z;
  removes : Element
}.

Record World := mkWorld {
  hasDocument : bool;                  (* typeof document !== 'undefined' *)
  hasBody : bool;                      (* document.body !== null *)
  activeElement : option Element;      (* document.activeElement; None: null *)
  focusableArea : nat -> bool;         (* whether the node can take focus at
                                          this moment *)
  focusLog : list nat;                 (* the elements focus() was called on *)
  listeners : list Listener;
  nextClosure : nat;
  bodyChildren : list Element;         (* document.body.childNodes, when there
                                          is a body *)
  nextNode : nat;
  clock : Z;                           (* milliseconds *)
  timers : list Timer;                 (* ordered by due time *)
  uncaught : list JSError;             (* exceptions reported from timer callbacks *)
  console : list LogEntry
}.

(** A call of focus() is recorded; the active element stays. *)
Definition withFocusCall (e : Element) (w : World) : World :=
  {| hasDocument := hasDocument w; hasBody := hasBody w;
     activeElement := activeElement w; focusableArea := focusableArea w;
     focusLog := focusLog w ++ [nodeId e];
     listeners := listeners w; nextClosure := nextClosure w;
     bodyChildren := bodyChildren w; nextNode := nextNode w; clock := clock w;
     timers := timers w; uncaught := uncaught w; console := console w |}.

(** A call of focus() is recorded and [e] becomes the active element. *)
Definition withFocus (e : Element) (w : World) : World :=
  {| hasDocument := hasDocument w; hasBody := hasBody w;
     activeElement := Some e; focusableArea := focusableArea w;
     focusLog := focusLog w ++ [nodeId e];
     listeners := listeners w; nextClosure := nextClosure w;
     bodyChildren := bodyChildren w; nextNode := nextNode w; clock := clock w;
     timers := timers w; uncaught := uncaught w; console := console w |}.

Definition withListeners (ls : list Listener) (nc : nat) (w : World) : World :=
  {| hasDocument := hasDocument w; hasBody := hasBody w;
     activeElement := activeElement w; focusableArea := focusableArea w;
     focusLog := focusLog w; listeners := ls; nextClosure := nc;
     bodyChildren := bodyChildren w; nextNode := nextNode w; clock := clock w;
     timers := timers w; uncaught := uncaught w; console := console w |}.

Definition withBody (cs : list Element) (nn : nat) (w : World) : World :=
  {| hasDocument := hasDocument w; hasBody := hasBody w;
     activeElement := activeElement w; focusableArea := focusableArea w;
     focusLog := focusLog w; listeners := listeners w; nextClosure := nextClosure w;
     bodyChildren := cs; nextNode := nn; clock := clock w;
     timers := timers w; uncaught := uncaught w; console := console w |}.

Definition withTimers (now : Z) (ts : list Timer) (errs : list JSError) (w : World) : World :=
  {| hasDocument := hasDocument w; hasBody := hasBody w;
     activeElement := activeElement w; focusableArea := focusableArea w;
     focusLog := focusLog w; listeners := listeners w; nextClosure := nextClosure w;
     bodyChildren := bodyChildren w; nextNode := nextNode w; clock := now;
     timers := ts; uncaught := errs; console := console w |}.

Definition withConsole (c : list LogEntry) (w : World) : World :=
  {| hasDocument := hasDocument w; hasBody := hasBody w;
     activeElement := activeElement w; focusableArea := focusableArea w;
     focusLog := focusLog w; listeners := listeners w; nextClosure := nextClosure w;
     bodyChildren := bodyChildren w; nextNode := nextNode w; clock := clock w;
     timers := timers w; uncaught := uncaught w; console := c |}.

Definition log (lv : LogLevel) (msg : string) : JS World unit :=
  modify (fun w => withConsole (console w ++ [mkLog lv msg]) w).

(** [typeof document !== 'undefined'] *)
Definition documentDefined : JS World bool := gets hasDocument.

(** [document.activeElement]; a ReferenceError without a document. *)
Definition getActiveElement : JS World (option Element) :=
  d ← gets hasDocument;
  if (d : bool) then gets activeElement else throw ReferenceError.

(** [e.focus()].  The element becomes the active element when it is a
    focusable area at this moment.  On any other element (a disabled
    control, an element that is not rendered or not connected, a body
    without tabindex) the call does nothing. *)
Definition focusingSteps (e : Element) (w : World) : World :=
  if focusableArea w (nodeId e) then withFocus e w else withFocusCall e w.

Definition focus (e : Element) : JS World unit := modify (focusingSteps e).

(** [x?.focus()]: nothing happens when [x] is undefined. *)
Definition optFocus (x : option Element) : JS World unit :=
  match x with
  | Some e => focus e
  | None => mret tt
  end.

(** [a === b] for [a] an element or null and [b] an element or
    undefined: null and undefined are not strictly equal. *)
Definition strictEq (a b : option Element) : bool :=
  match a, b with
  | Some x, Some y => bool_decide (nodeId x = nodeId y)
  | _, _ => false
  end.

Definition sameListener (t : nat) (ty : string) (h : Handler) (l : Listener) : bool :=
  bool_decide (target l = t) && bool_decide (eventType l = ty)
  && bool_decide (closureId (callback l) = closureId h).

(** addEventListener ignores a listener that is already registered. *)
Definition addEventListener (t : Element) (ty : string) (h : Handler) : JS World unit :=
  modify (fun w =>
    if existsb (sameListener (nodeId t) ty h) (listeners w) then w
    else withListeners (listeners w ++ [mkListener (nodeId t) ty h]) (nextClosure w) w).

Definition removeEventListener (t : Element) (ty : string) (h : Handler) : JS World unit :=
  modify (fun w =>
    withListeners (filter (fun l => sameListener (nodeId t) ty h l = false) (listeners w))
                  (nextClosure w) w).

(** Evaluating a function declaration allocates a closure object. *)
Definition newClosure (first last : option Element) : JS World Handler :=
  fun w => Returned (mkHandler (nextClosure w) first last)
                    (withListeners (listeners w) (S (nextClosure w)) w).

(** *** Invariants of the environment *)

(** Closure identities are allocated from [nextClosure]: no registered
    listener carries an identity that is still to be allocated. *)
Definition closuresFresh (w : World) : Prop :=
  Forall (fun l => closureId (callback l) < nextClosure w) (listeners w).

(** Node identities are allocated from [nextNode]. *)
Definition nodesFresh (w : World) : Prop :=
  Forall (fun c => nodeId c < nextNode w) (bodyChildren w)
  /\ Forall (fun t => nodeId (removes t) < nextNode w) (timers w).

(** The timer queue is kept in the order the callbacks fire. *)
Definition timersSorted (w : World) : Prop :=
  StronglySorted (fun a b => (due a <= due b)%Z) (timers w).

End Dom.

(** ** Focus management (focus.ts) *)

Module Focus.
Import Dom.

Definition focusableTags : list string := ["A"; "BUTTON"; "INPUT"; "SELECT"; "TEXTAREA"].

(** [isFocusable(element)] *)
Definition isFocusable (element : Element) : bool :=
  if (0 <? tabIndex element)%Z
     || ((tabIndex element =? 0)%Z
         && negb (bool_decide (getAttribute "tabIndex" element = None)))
  then true
  else if hasAttribute "disabled" element then false
  else bool_decide (tagName element ∈ focusableTags).

(** The selector list
    button, [href], input, select, textarea, [tabindex]:not([tabindex="-1"])
    passed to querySelectorAll. *)
Definition focusableSelector : list Compound :=
  [ SelType "button"; SelHas "href"; SelType "input"; SelType "select";
    SelType "textarea";
    SelBoth (SelHas "tabindex") (SelNot (SelAttrIs "tabindex" "-1")) ].

(** What the selector list selects, spelled out. *)
Definition selected (e : Element) : Prop :=
  localNameOf e ∈ ["button"; "input"; "select"; "textarea"]
  \/ is_Some (assoc "href" (attributes e))
  \/ (is_Some (assoc "tabindex" (attributes e))
      /\ assoc "tabindex" (attributes e) <> Some "-1").

#[global] Instance selected_dec e : Decision (selected e).
Proof. unfold selected. apply _. Defined.

(** The focusable set in the words of the specification: anchor with
    href, button, input, select, textarea, and any element with an
    explicit non-negative tabindex. *)
Definition specFocusable (e : Element) : bool :=
  (bool_decide (tagName e = "A") && hasAttribute "href" e)
  || bool_decide (tagName e ∈ ["BUTTON"; "INPUT"; "SELECT"; "TEXTAREA"])
  || (hasAttribute "tabindex" e && (0 <=? tabIndex e)%Z).

Definition specFocusableSet (n : Node) : list Element :=
  filter (fun e => specFocusable e = true) (descendants n).

(** The rules of the focusability predicate as the specification lists
    them, in order. *)
Definition explicitTabStop (e : Element) : Prop :=
  (0 < tabIndex e)%Z
  \/ (tabIndex e = 0%Z /\ is_Some (assoc "tabindex" (attributes e))).

Inductive FocusRule (e : Element) : bool -> Prop :=
  | rule_tabindex :
      explicitTabStop e -> FocusRule e true
  | rule_disabled :
      ~ explicitTabStop e ->
      is_Some (assoc "disabled" (attributes e)) -> FocusRule e false
  | rule_tag :
      ~ explicitTabStop e ->
      ~ is_Some (assoc "disabled" (attributes e)) ->
      tagName e ∈ ["A"; "BUTTON"; "INPUT"; "SELECT"; "TEXTAREA"] -> FocusRule e true
  | rule_otherwise :
      ~ explicitTabStop e ->
      ~ is_Some (assoc "disabled" (attributes e)) ->
      tagName e ∉ ["A"; "BUTTON"; "INPUT"; "SELECT"; "TEXTAREA"] -> FocusRule e false.

(** [e.preventDefault()] sets the canceled flag of a cancelable event
    and does nothing on another one.  The listener is not passive. *)
Definition preventDefault (e : KeyboardEvent) : KeyboardEvent :=
  {| key := key e; shiftKey := shiftKey e; cancelable := cancelable e;
     defaultPrevented := defaultPrevented e || cancelable e |}.

(** [handleKeyDown(e)], closed over firstFocusable and lastFocusable.
    The event object is mutated by preventDefault; the updated event is
    returned. *)

Definition handleKeyDown (h : Handler) (e : KeyboardEvent) : JS World KeyboardEvent :=
  if negb (bool_decide (key e = "Tab")) then mret e
  else if shiftKey e then
    active ← getActiveElement;
    if strictEq active (firstFocusable h) then
      let e := preventDefault e in
      optFocus (lastFocusable h);; mret e
    else mret e
  else
    active ← getActiveElement;
    if strictEq active (lastFocusable h) then
      let e := preventDefault e in
      optFocus (firstFocusable h);; mret e
    else mret e.

(** Delivery of a keydown event to the listeners registered on
    [container], in registration order. *)
Fixpoint runListeners (ls : list Listener) (e : KeyboardEvent) : JS World KeyboardEvent :=
  match ls with
  | [] => mret e
  | l :: ls' => e' ← handleKeyDown (callback l) e; runListeners ls' e'
  end.

Definition keydownListeners (container : Element) (w : World) : list Listener :=
  filter (fun l => target l = nodeId container ∧ eventType l = "keydown") (listeners w).

Definition dispatchKeyDown (container : Element) (e : KeyboardEvent)
  : JS World KeyboardEvent :=
  ls ← gets (keydownListeners container);
  runListeners ls e.

(** [trapFocus(element)].  [None] is a null or undefined argument.  The
    result is the cleanup closure. *)
Definition trapFocus (element : option Node) : JS World (JS World unit) :=
  match element with
  | None =>
      log LogError
        "[a11y-core] trapFocus: element is null or undefined. Make sure to pass a valid DOM element.";;
      mret (mret tt)
  | Some el =>
      d ← documentDefined;
      if negb d then
        log LogWarn
          "[a11y-core] trapFocus: Running in non-browser environment. Focus trap will be disabled.";;
        mret (mret tt)
      else
        let focusableElements := querySelectorAll focusableSelector el in
        let first := index focusableElements 0 in
        let last := index focusableElements (Z.of_nat (length focusableElements) - 1) in
        handler ← newClosure first last;
        addEventListener (elementOf el) "keydown" handler;;
        optFocus first;;
        mret (removeEventListener (elementOf el) "keydown" handler)
  end.

(** [class FocusManager]: one private field. *)
Record FocusManager := mkFocusManager {
  previousElement : option Element   (* None: null *)
}.

(** [new FocusManager()] *)
Definition newFocusManager : FocusManager := {| previousElement := None |}.

(** [saveFocus()] returns the updated object. *)
Definition saveFocus (this : FocusManager) : JS World FocusManager :=
  active ← getActiveElement;
  mret {| previousElement :=
            match active with
            | Some e => if isHTMLElement e then Some e else None
            | None => None
            end |}.

(** [restoreFocus()].  The focus member of an element is always a
    function. *)
Definition restoreFocus (this : FocusManager) : JS World unit :=
  match previousElement this with
  | Some e => focus e
  | None => mret tt
  end.

End Focus.

(** ** Screen-reader announcements *)

Module ScreenReader.
Import Dom.

Inductive Priority := Polite | Assertive.

Definition priorityString (p : Priority) : string :=
  match p with Polite => "polite" | Assertive => "assertive" end.

(** [document.createElement(localName)] in an HTML document, for an
    HTML element that is not focusable by default, such as a div. *)
Definition createElement (localName : string) : JS World Element :=
  fun w => Returned {| nodeId := nextNode w; isHTMLElement := true;
                       isHTMLInHTMLDocument := true;
                       tagName := toUpperCase localName;
                       tabIndex := (-1)%Z; attributes := []; style := [];
                       textContent := "" |}
                    (withBody (bodyChildren w) (S (nextNode w)) w).

(** [document.body.appendChild(e)]: a TypeError when document.body is
    null; otherwise a node that is already a child is moved to the
    end. *)
Definition appendChild (e : Element) : JS World unit :=
  fun w =>
    if negb (hasBody w) then Thrown TypeError w
    else
      Returned tt
        (withBody (filter (fun c => nodeId c ≠ nodeId e) (bodyChildren w) ++ [e])
                  (nextNode w) w).

(** [document.body.removeChild(e)]: a TypeError when document.body is
    null, a NotFoundError when [e] is not a child. *)
Definition removeChild (e : Element) : JS World unit :=
  fun w =>
    if negb (hasBody w) then Thrown TypeError w
    else if existsb (fun c => bool_decide (nodeId c = nodeId e)) (bodyChildren w) then
      Returned tt (withBody (filter (fun c => nodeId c ≠ nodeId e) (bodyChildren w))
                            (nextNode w) w)
    else Thrown NotFoundError w.

Fixpoint insertTimer (t : Timer) (ts : list Timer) : list Timer :=
  match ts with
  | [] => [t]
  | t' :: ts' => if (due t' <=? due t)%Z then t' :: insertTimer t ts' else t :: t' :: ts'
  end.

(** [setTimeout(() => document.body.removeChild(e), delay)] *)
Definition setTimeout (e : Element) (delay : Z) : JS World unit :=
  modify (fun w =>
    withTimers (clock w) (insertTimer (mkTimer (clock w + delay) e) (timers w))
               (uncaught w) w).

(** The style object assigned to the announcement. *)
Definition announcementStyle : list (string * string) :=
  [ ("position", "absolute"); ("width", "1px"); ("height", "1px");
    ("padding", "0"); ("margin", "-1px"); ("overflow", "hidden");
    ("clip", "rect(0, 0, 0, 0)"); ("whiteSpace", "nowrap");
    ("border", "0") ].

(** [announceToScreenReader(message, priority = 'polite')].  [None] is
    an omitted second argument. *)
Definition announceToScreenReader (message : string) (priority : option Priority)
  : JS World unit :=
  let priority := default Polite priority in
  d ← documentDefined;
  if negb d then
    log LogWarn
      "[a11y-core] announceToScreenReader: Running in non-browser environment. Announcement will be skipped."
  else if bool_decide (message = "") then
    log LogWarn "[a11y-core] announceToScreenReader: Empty message provided."
  else
    announcement ← createElement "div";
    let announcement := setAttribute "role" "status" announcement in
    let announcement := setAttribute "aria-live" (priorityString priority) announcement in
    let announcement := setAttribute "aria-atomic" "true" announcement in
    let announcement := assignStyle announcementStyle announcement in
    let announcement := setTextContent message announcement in
    appendChild announcement;;
    setTimeout announcement 1000.

(** One timer callback runs.  An exception it throws is reported and
    does not stop the event loop. *)
Definition fire (t : Timer) (w : World) : World :=
  match removeChild (removes t) w with
  | Returned _ w' => w'
  | Thrown err w' => withTimers (clock w') (timers w') (uncaught w' ++ [err]) w'
  end.

(** The event loop runs the timers that are due once the clock reaches
    [now], in queue order. *)
Fixpoint runTimers (now : Z) (ts : list Timer) (w : World) : World :=
  match ts with
  | [] => withTimers now [] (uncaught w) w
  | t :: ts' =>
      if (due t <=? now)%Z then runTimers now ts' (fire t w)
      else withTimers now (t :: ts') (uncaught w) w
  end.

(** The value of the variable [announcement] at the time it is
    appended, for the node identity [id] that createElement allocated. *)
Definition liveRegion (id : nat) (message : string) (priority : Priority) : Element :=
  setTextContent message
    (assignStyle announcementStyle
       (setAttribute "aria-atomic" "true"
          (setAttribute "aria-live" (priorityString priority)
             (setAttribute "role" "status"
                {| nodeId := id; isHTMLElement := true; isHTMLInHTMLDocument := true;
                   tagName := toUpperCase "div";
                   tabIndex := (-1)%Z; attributes := []; style := [];
                   textContent := "" |})))).

(** [dt] milliseconds pass. *)
Definition advance (dt : Z) (w : World) : World :=
  runTimers (clock w + dt) (timers w) w.

End ScreenReader.

(** ** Example pages *)

Module Examples.
Import Dom.

(** An HTML element of an HTML document. *)
Definition htmlElement (id : nat) (tag : string) (ti : Z)
           (attrs : list (string * string)) : Element :=
  {| nodeId := id; isHTMLElement := true; isHTMLInHTMLDocument := true;
     tagName := tag; tabIndex := ti;
     attributes := attrs; style := []; textContent := "" |}.

(** An svg element inside an HTML document: no HTMLElement, and its
    attribute names are looked up as they are written. *)
Definition svgElement (id : nat) (tag : string) (ti : Z)
           (attrs : list (string * string)) : Element :=
  {| nodeId := id; isHTMLElement := false; isHTMLInHTMLDocument := false;
     tagName := tag; tabIndex := ti;
     attributes := attrs; style := []; textContent := "" |}.

(** The nodes of the example pages that can take focus: the opener, the
    buttons, the span and the area below.  The disabled button 31 and
    the body 40 cannot. *)
Definition takesFocus (id : nat) : bool :=
  bool_decide (id ∈ [2; 3; 5; 11; 12; 13; 32]).

(** A page with a document and a body, nothing focused and nothing
    registered. *)
Definition page : World :=
  {| hasDocument := true; hasBody := true; activeElement := None;
     focusableArea := takesFocus; focusLog := []; listeners := [];
     nextClosure := 0; bodyChildren := []; nextNode := 100; clock := 0;
     timers := []; uncaught := []; console := [] |}.

(** The same page while its document has no body yet. *)
Definition bodyless : World :=
  {| hasDocument := true; hasBody := false; activeElement := None;
     focusableArea := takesFocus; focusLog := []; listeners := [];
     nextClosure := 0; bodyChildren := []; nextNode := 100; clock := 0;
     timers := []; uncaught := []; console := [] |}.

(** The button that opens the dialog. *)
Definition opener : Element := htmlElement 5 "BUTTON" 0 [].

(** A dialog with two buttons. *)
Definition buttonB : Element := htmlElement 2 "BUTTON" 0 [].
Definition buttonC : Element := htmlElement 3 "BUTTON" 0 [].
Definition dialog : Node :=
  Nd (htmlElement 1 "DIV" (-1) [("role", "dialog")]) [Nd buttonB []; Nd buttonC []].

(** A container whose first descendants are a span with tabindex -2 and
    an area with href, followed by a button. *)
Definition spanMinusTwo : Element := htmlElement 11 "SPAN" (-2) [("tabindex", "-2")].
Definition areaLink : Element := htmlElement 12 "AREA" 0 [("href", "#")].
Definition plainButton : Element := htmlElement 13 "BUTTON" 0 [].
Definition oddContainer : Node :=
  Nd (htmlElement 10 "DIV" (-1) [])
     [Nd spanMinusTwo []; Nd areaLink []; Nd plainButton []].

(** A dialog whose first button is disabled. *)
Definition disabledButton : Element := htmlElement 31 "BUTTON" 0 [("disabled", "")].
Definition enabledButton : Element := htmlElement 32 "BUTTON" 0 [].
Definition disabledDialog : Node :=
  Nd (htmlElement 30 "DIV" (-1) []) [Nd disabledButton []; Nd enabledButton []].

(** The body element, which is the active element while nothing is
    focused. *)
Definition bodyElement : Element := htmlElement 40 "BODY" (-1) [].

(** The page while nothing is focused. *)
Definition idle : World :=
  {| hasDocument := true; hasBody := true; activeElement := Some bodyElement;
     focusableArea := takesFocus; focusLog := []; listeners := [];
     nextClosure := 0; bodyChildren := []; nextNode := 100; clock := 0;
     timers := []; uncaught := []; console := [] |}.

(** An svg element with a tabindex attribute. *)
Definition svgTabStop : Element := svgElement 50 "svg" 0 [("tabindex", "0")].

(** A container with nothing focusable inside. *)
Definition textOnly : Node :=
  Nd (htmlElement 20 "DIV" (-1) []) [Nd (htmlElement 21 "P" (-1) []) []].

(** A Tab press as the browser dispatches it. *)
Definition tab (shift : bool) : KeyboardEvent :=
  {| key := "Tab"; shiftKey := shift; cancelable := true; defaultPrevented := false |}.

(** Opening and closing a modal dialog: save the focus, trap it in the
    dialog, press Shift+Tab, release the trap, restore the focus.  The
    result is the key event as the listeners left it. *)
Definition modalScenario : JS World KeyboardEvent :=
  saved ← Focus.saveFocus Focus.newFocusManager;
  release ← Focus.trapFocus (Some dialog);
  pressed ← Focus.dispatchKeyDown (elementOf dialog) (tab true);
  (release : JS World unit);;
  Focus.restoreFocus saved;;
  mret pressed.

End Examples.

(** * Properties *)

(** ** The locale registry *)

Section LocaleFacts.
Import Locales.

Lemma requiredKeys_not_inherited (key : string) :
  key ∈ requiredKeys -> key ∉ objectPrototypeKeys.
Proof.
  intros Hin Hproto.
  assert (Hdisj : forallb (fun k => negb (bool_decide (k ∈ objectPrototypeKeys)))
                          requiredKeys = true) by (vm_compute; reflexivity).
  rewrite forallb_forall in Hdisj.
  specialize (Hdisj key). rewrite <- list_elem_of_In in Hdisj.
  specialize (Hdisj Hin). apply negb_true_iff in Hdisj.
  apply bool_decide_eq_false in Hdisj. contradiction.
Qed.

Lemma inOp_required (key : string) (table : gmap string string) :
  key ∈ requiredKeys -> inOp key table = bool_decide (is_Some (table !! key)).
Proof.
  intros Hin. unfold inOp.
  rewrite (bool_decide_eq_false_2 (key ∈ objectPrototypeKeys)).
  - apply orb_false_r.
  - by apply requiredKeys_not_inherited.
Qed.

(** The keys of the message interface that registerLocale checks are a
    strict sublist of the interface: the last four are not checked. *)
Lemma requiredKeys_prefix :
  A11yMessagesKeys = (requiredKeys ++ ["required"; "optional"; "error"; "success"])%list.
Proof. reflexivity. Qed.

(** A table that lacks one of the keys registerLocale checks is
    rejected: one error is logged, and the registry, the current locale
    and the active table stay as they were. *)
Lemma registerLocale_rejects_missing_checked_key
      locale (table : gmap string string) (key : string) s :
  key ∈ requiredKeys -> table !! key = None ->
  exists entry,
    level entry = LogError /\
    registerLocale locale (Some table) s
    = Returned tt {| localeData := localeData s; currentLocale := currentLocale s;
                     messages := messages s; console := console s ++ [entry] |}.
Proof.
  intros Hin Hnone. unfold registerLocale.
  case_bool_decide as Hloc.
  - eexists. split; [|reflexivity]. reflexivity.
  - case_bool_decide as Hlen.
    + eexists. split; [|reflexivity]. reflexivity.
    + exfalso. apply Hlen.
      assert (Hk : key ∈ filter (fun key => negb (inOp key table) = true) requiredKeys).
      { apply list_elem_of_filter. split; [|done].
        rewrite inOp_required by done.
        rewrite bool_decide_eq_false_2; [done|].
        rewrite Hnone. by intros [? ?]. }
      destruct (filter _ requiredKeys); [by apply not_elem_of_nil in Hk | simpl; lia].
Qed.

(** A table with every checked key registered under a non-empty code is
    stored. *)
Lemma registerLocale_accepts locale (table : gmap string string) s :
  locale <> "" ->
  (forall key : string, key ∈ requiredKeys -> inOp key table = true) ->
  registerLocale locale (Some table) s
  = Returned tt {| localeData := localeDataSet (localeData s) locale table;
                   currentLocale := currentLocale s;
                   messages := messages s; console := console s |}.
Proof.
  intros Hloc Hall. unfold registerLocale.
  rewrite bool_decide_eq_false_2 by done.
  assert (Hnil : filter (fun key => negb (inOp key table) = true) requiredKeys = []).
  { induction requiredKeys as [|k ks IH]; [done|].
    rewrite filter_cons, decide_False.
    - apply IH. intros key Hkey. apply Hall. by right.
    - rewrite Hall by left. discriminate. }
  rewrite Hnil. reflexivity.
Qed.

Lemma localeDataGet_Set ld locale table :
  localeDataGet (localeDataSet ld locale table) locale = VObject table.
Proof.
  unfold localeDataGet, localeDataSet.
  case_bool_decide; simpl; [done|].
  by rewrite lookup_insert_eq.
Qed.

Lemma setLocale_empty s :
  setLocale "" s
  = Returned tt {| localeData := localeData s; currentLocale := currentLocale s;
                   messages := messages s;
                   console := console s
                     ++ [mkLog LogError "[a11y-core] setLocale: locale code is required"] |}.
Proof. reflexivity. Qed.

Lemma setLocale_found locale s :
  locale <> "" ->
  truthy (localeDataGet (localeData s) locale) = true ->
  setLocale locale s
  = Returned tt {| localeData := localeData s; currentLocale := locale;
                   messages := localeDataGet (localeData s) locale;
                   console := console s |}.
Proof.
  intros Hne Hfound. unfold setLocale.
  rewrite bool_decide_eq_false_2 by done.
  unfold mbind, JS_bind, gets. rewrite Hfound. reflexivity.
Qed.

Lemma setLocale_fallback locale s :
  locale <> "" ->
  truthy (localeDataGet (localeData s) locale) = false ->
  exists entry,
    level entry = LogWarn /\
    setLocale locale s
    = Returned tt {| localeData := localeData s; currentLocale := "en";
                     messages := localeDataGet (localeData s) "en";
                     console := console s ++ [entry] |}.
Proof.
  intros Hne Hmissing. unfold setLocale.
  rewrite bool_decide_eq_false_2 by done.
  unfold mbind, JS_bind, gets. rewrite Hmissing.
  eexists. split; [|reflexivity]. reflexivity.
Qed.

(** C1 (defect in the code): registerLocale checks only the first 32 of
    the 36 keys of the A11yMessages interface.  A table that lacks the
    interface key required is missing a required message key, yet the
    registration is accepted: nothing is logged and the registry gains
    an entry for the code. *)
Theorem registerLocale_accepts_table_without_required :
  "required" ∈ A11yMessagesKeys /\
  inOp "required" (delete "required" en) = false /\
  localeDataGet (localeData initial) "de" = VUndefined /\
  exists s',
    registerLocale "de" (Some (delete "required" en)) initial = Returned tt s' /\
    localeDataGet (localeData s') "de" = VObject (delete "required" en) /\
    console s' = [].
Proof.
  split; [compute_done|].
  split; [by vm_compute|].
  split; [by vm_compute|].
  eexists. split.
  - apply registerLocale_accepts; [done|].
    intros key Hkey.
    assert (Hall : forallb (fun k => inOp k (delete "required" en)) requiredKeys = true)
      by (vm_compute; reflexivity).
    rewrite forallb_forall in Hall. apply Hall. by apply list_elem_of_In.
  - split; [apply localeDataGet_Set | reflexivity].
Qed.

(** C10: registerLocale, accepted or rejected, returns normally and
    leaves getCurrentLocale() and getMessages() as they were, also when
    the code is the active one; an accepted table is what getMessages()
    returns after the next setLocale of that code. *)
Theorem registerLocale_preserves_active
        (locale : string) (lm : option (gmap string string)) (s : LocaleState) :
  exists s',
    registerLocale locale lm s = Returned tt s' /\
    value (getCurrentLocale s') = value (getCurrentLocale s) /\
    value (getMessages s') = value (getMessages s) /\
    (forall table,
       lm = Some table -> locale <> "" ->
       (forall key : string, key ∈ requiredKeys -> inOp key table = true) ->
       exists s'',
         setLocale locale s' = Returned tt s'' /\
         value (getCurrentLocale s'') = Some locale /\
         value (getMessages s'') = Some (VObject table)).
Proof.
  unfold registerLocale.
  case_bool_decide as Hloc.
  { eexists. split; [reflexivity|]. repeat split; try reflexivity.
    intros; contradiction. }
  destruct lm as [table|].
  2:{ eexists. split; [reflexivity|]. repeat split; try reflexivity.
      intros; discriminate. }
  case_bool_decide as Hlen.
  - eexists. split; [reflexivity|]. repeat split; try reflexivity.
    intros t [= <-] _ Hall. exfalso. revert Hlen.
    assert (Hnil : filter (fun key => negb (inOp key table) = true) requiredKeys = []).
    { clear -Hall. induction requiredKeys as [|k ks IH]; [done|].
      rewrite filter_cons, decide_False.
      - apply IH. intros key Hkey. apply Hall. by right.
      - rewrite Hall by left. discriminate. }
    rewrite Hnil. simpl. lia.
  - eexists. split; [reflexivity|]. repeat split; try reflexivity.
    intros t [= <-] _ _. eexists. split.
    + apply setLocale_found; [done|]. cbn [localeData].
      by rewrite localeDataGet_Set.
    + cbn. by rewrite localeDataGet_Set.
Qed.

(** Re-registering the active code en with the Swedish table: the
    active table is still the English one until setLocale is called. *)
Lemma registerLocale_preserves_active_witness :
  exists s',
    registerLocale "en" (Some sv) initial = Returned tt s' /\
    value (getCurrentLocale s') = value (getCurrentLocale initial) /\
    value (getMessages s') = value (getMessages initial) /\
    (forall table,
       Some sv = Some table -> "en" <> "" ->
       (forall key : string, key ∈ requiredKeys -> inOp key table = true) ->
       exists s'',
         setLocale "en" s' = Returned tt s'' /\
         value (getCurrentLocale s'') = Some "en" /\
         value (getMessages s'') = Some (VObject table)).
Proof. exact (registerLocale_preserves_active "en" (Some sv) initial). Defined.

(** A code that names a member inherited from Object.prototype is
    found by the lookup although no table is registered under it: the
    inherited member becomes the active messages value. *)
Lemma setLocale_inherited_member :
  ("constructor" ∉ registered (localeData initial)) /\
  exists s',
    setLocale "constructor" initial = Returned tt s' /\
    currentLocale s' = "constructor" /\
    messages s' = VBuiltin "constructor".
Proof. split; [compute_done|]. eexists. split; [by vm_compute|]. done. Qed.

(** C5 fails as stated.  The empty code has no registered table, yet
    setLocale of it after setLocale of sv logs an error, not a warning,
    and leaves the current locale at sv with the Swedish table active.
    And once en has been re-registered (here with the Swedish table),
    the fall-back for an unknown code activates that table, not the
    built-in English one. *)
Lemma setLocale_fallback_counterexample :
  (exists s s',
     setLocale "sv" initial = Returned tt s /\
     ("" ∉ registered (localeData s)) /\
     setLocale "" s = Returned tt s' /\
     currentLocale s' = "sv" /\
     messages s' = VObject sv /\
     Forall (fun entry => level entry = LogError) (console s'))
  /\
  (exists s s',
     registerLocale "en" (Some sv) initial = Returned tt s /\
     ("xx" ∉ registered (localeData s)) /\
     setLocale "xx" s = Returned tt s' /\
     messages s' = VObject sv /\
     VObject sv <> VObject en).
Proof.
  split.
  - eexists. eexists. split; [reflexivity|].
    split; [compute_done|].
    split; [reflexivity|].
    split; [reflexivity|].
    split; [reflexivity|].
    repeat constructor.
  - eexists. eexists. split; [by vm_compute|].
    split; [compute_done|].
    split; [by vm_compute|].
    split; [reflexivity|].
    compute_done.
Qed.

(** C5, amended.  (1) While the built-in Swedish table is the one
    registered under sv, setLocale of sv makes close read as the
    Swedish word and the current locale sv.  (2) For a non-empty code
    whose lookup in localeData is falsy, setLocale logs one warning,
    sets the current locale to en and activates whatever localeData
    holds under en, which is the built-in English table as long as en
    has not been re-registered.  (3) For the empty code setLocale logs
    an error and changes neither the current locale nor the active
    table. *)
Theorem setLocale_spec :
  (forall s,
     entries (localeData s) !! "sv" = Some sv ->
     exists s',
       setLocale "sv" s = Returned tt s' /\
       member (messages s') "close" = Some (VString "Stäng") /\
       value (getMessages s') = Some (VObject sv) /\
       value (getCurrentLocale s') = Some "sv")
  /\
  (forall s locale,
     locale <> "" ->
     truthy (localeDataGet (localeData s) locale) = false ->
     exists s' entry,
       setLocale locale s = Returned tt s' /\
       console s' = (console s ++ [entry])%list /\ level entry = LogWarn /\
       localeData s' = localeData s /\
       value (getCurrentLocale s') = Some "en" /\
       value (getMessages s') = Some (localeDataGet (localeData s) "en") /\
       (entries (localeData s) !! "en" = Some en ->
        value (getMessages s') = Some (VObject en)))
  /\
  (forall s,
     exists s' entry,
       setLocale "" s = Returned tt s' /\
       console s' = (console s ++ [entry])%list /\ level entry = LogError /\
       localeData s' = localeData s /\
       value (getCurrentLocale s') = value (getCurrentLocale s) /\
       value (getMessages s') = value (getMessages s)).
Proof.
  split; [|split].
  - intros s Hsv.
    assert (Hget : localeDataGet (localeData s) "sv" = VObject sv).
    { unfold localeDataGet. rewrite bool_decide_eq_false_2 by done. by rewrite Hsv. }
    eexists. split.
    + apply setLocale_found; [done|]. by rewrite Hget.
    + cbn. rewrite Hget. by vm_compute.
  - intros s locale Hne Hmissing.
    destruct (setLocale_fallback locale s Hne Hmissing) as (entry & Hlevel & Hrun).
    eexists. exists entry. split; [exact Hrun|]. cbn.
    repeat split; try done.
    intros Hen. unfold localeDataGet.
    rewrite bool_decide_eq_false_2 by done. by rewrite Hen.
  - intros s. eexists. eexists. split; [apply setLocale_empty|]. cbn. done.
Qed.

(** The three parts of [setLocale_spec] at work from the initial state:
    sv is found, the unregistered code de falls back to English, and
    the empty code is refused. *)
Lemma setLocale_spec_witness :
  (exists s',
     setLocale "sv" initial = Returned tt s' /\
     member (messages s') "close" = Some (VString "Stäng") /\
     value (getMessages s') = Some (VObject sv) /\
     value (getCurrentLocale s') = Some "sv")
  /\
  (exists s' entry,
     setLocale "de" initial = Returned tt s' /\
     console s' = (console initial ++ [entry])%list /\ level entry = LogWarn /\
     localeData s' = localeData initial /\
     value (getCurrentLocale s') = Some "en" /\
     value (getMessages s') = Some (localeDataGet (localeData initial) "en") /\
     (entries (localeData initial) !! "en" = Some en ->
      value (getMessages s') = Some (VObject en))).
Proof.
  split.
  - apply (proj1 setLocale_spec initial). vm_compute. reflexivity.
  - apply (proj1 (proj2 setLocale_spec) initial "de").
    + discriminate.
    + vm_compute. reflexivity.
Defined.

End LocaleFacts.

(** ** Focus management *)

Section FocusFacts.
Import Dom Focus.

(** *** isFocusable *)

(** On an HTML element of an HTML document the lookups of the code see
    the attributes tabindex and disabled. *)
Lemma getAttribute_tabIndex e :
  isHTMLInHTMLDocument e = true ->
  getAttribute "tabIndex" e = assoc "tabindex" (attributes e).
Proof. intros Hhtml. unfold getAttribute, attributeName. by rewrite Hhtml. Qed.

Lemma hasAttribute_disabled e :
  hasAttribute "disabled" e = bool_decide (is_Some (assoc "disabled" (attributes e))).
Proof. unfold hasAttribute, getAttribute, attributeName. by destruct (isHTMLInHTMLDocument e). Qed.

Lemma explicitTabStop_test e :
  isHTMLInHTMLDocument e = true ->
  (0 <? tabIndex e)%Z
  || ((tabIndex e =? 0)%Z && negb (bool_decide (getAttribute "tabIndex" e = None)))
  = true <-> explicitTabStop e.
Proof.
  intros Hhtml. rewrite getAttribute_tabIndex by done. unfold explicitTabStop.
  rewrite orb_true_iff, andb_true_iff, negb_true_iff, Z.ltb_lt, Z.eqb_eq.
  rewrite bool_decide_eq_false, <- not_eq_None_Some.
  reflexivity.
Qed.

Lemma isFocusable_true_of_tabStop e :
  isHTMLInHTMLDocument e = true -> explicitTabStop e -> isFocusable e = true.
Proof.
  intros Hhtml H. apply explicitTabStop_test in H; [|done]. unfold isFocusable. by rewrite H.
Qed.

Lemma isFocusable_without_tabStop e :
  isHTMLInHTMLDocument e = true ->
  ~ explicitTabStop e ->
  isFocusable e
  = if hasAttribute "disabled" e then false
    else bool_decide (tagName e ∈ focusableTags).
Proof.
  intros Hhtml H. unfold isFocusable.
  destruct ((0 <? tabIndex e)%Z || _) eqn:Htest; [|done].
  by apply explicitTabStop_test in Htest.
Qed.

(** C6: on every HTML element of an HTML document, isFocusable applies
    the four rules in order: an explicit tabindex above zero, or zero
    with the tabindex attribute present, gives true; otherwise a
    disabled attribute gives false; otherwise one of the tags A,
    BUTTON, INPUT, SELECT, TEXTAREA gives true; otherwise false. *)
Theorem isFocusable_rules (e : Element) (b : bool) :
  isHTMLInHTMLDocument e = true ->
  isFocusable e = b <-> FocusRule e b.
Proof.
  intros Hhtml. split.
  - intros <-.
    destruct (decide (explicitTabStop e)) as [Htab|Htab].
    { rewrite isFocusable_true_of_tabStop by done. by constructor. }
    rewrite isFocusable_without_tabStop, hasAttribute_disabled by done.
    case_bool_decide as Hdis.
    { by apply rule_disabled. }
    case_bool_decide as Htag.
    + by apply rule_tag.
    + by apply rule_otherwise.
  - intros [Htab | Htab Hdis | Htab Hdis Htag | Htab Hdis Htag].
    + by apply isFocusable_true_of_tabStop.
    + rewrite isFocusable_without_tabStop, hasAttribute_disabled by done.
      by rewrite bool_decide_eq_true_2.
    + rewrite isFocusable_without_tabStop, hasAttribute_disabled by done.
      rewrite bool_decide_eq_false_2 by done.
      by apply bool_decide_eq_true_2.
    + rewrite isFocusable_without_tabStop, hasAttribute_disabled by done.
      rewrite bool_decide_eq_false_2 by done.
      by apply bool_decide_eq_false_2.
Qed.

(** The four rules at work on HTML elements: a div with tabindex 0, a
    disabled button, a plain button and a paragraph. *)
Lemma isFocusable_rules_witness :
  (isFocusable (Examples.htmlElement 1 "DIV" 0 [("tabindex", "0")]) = true
   <-> FocusRule (Examples.htmlElement 1 "DIV" 0 [("tabindex", "0")]) true)
  /\ (isFocusable Examples.disabledButton = false
      <-> FocusRule Examples.disabledButton false)
  /\ (isFocusable Examples.plainButton = true
      <-> FocusRule Examples.plainButton true)
  /\ (isFocusable (Examples.htmlElement 21 "P" (-1) []) = false
      <-> FocusRule (Examples.htmlElement 21 "P" (-1) []) false).
Proof.
  split; [|split; [|split]].
  - apply (isFocusable_rules (Examples.htmlElement 1 "DIV" 0 [("tabindex", "0")]) true).
    reflexivity.
  - apply (isFocusable_rules Examples.disabledButton false). reflexivity.
  - apply (isFocusable_rules Examples.plainButton true). reflexivity.
  - apply (isFocusable_rules (Examples.htmlElement 21 "P" (-1) []) false). reflexivity.
Defined.

(** Outside HTML the lookup of the code asks for an attribute spelled
    tabIndex: an svg element with tabindex="0" has the tab stop of the
    first rule, and isFocusable returns false for it. *)
Lemma isFocusable_svg_tabindex :
  isHTMLInHTMLDocument Examples.svgTabStop = false /\
  explicitTabStop Examples.svgTabStop /\
  getAttribute "tabIndex" Examples.svgTabStop = None /\
  isFocusable Examples.svgTabStop = false.
Proof.
  split; [reflexivity|]. split; [|split; reflexivity].
  right. split; [reflexivity|]. by eexists.
Qed.

(** *** focus() *)

Lemma focusingSteps_focusLog e w :
  focusLog (focusingSteps e w) = (focusLog w ++ [nodeId e])%list.
Proof. unfold focusingSteps. by destruct (focusableArea w (nodeId e)). Qed.

Lemma focusingSteps_activeElement e w :
  activeElement (focusingSteps e w)
  = if focusableArea w (nodeId e) then Some e else activeElement w.
Proof. unfold focusingSteps. by destruct (focusableArea w (nodeId e)). Qed.


Lemma focusingSteps_listeners e w :
  listeners (focusingSteps e w) = listeners w
  /\ nextClosure (focusingSteps e w) = nextClosure w.
Proof. unfold focusingSteps. by destruct (focusableArea w (nodeId e)). Qed.

(** *** FocusManager *)



(** While nothing is focused the active element is the body, which
    saveFocus stores; a body cannot take focus, so that restoring
    calls focus() on it and leaves the focus on the button it moved to
    in between. *)
Lemma restoreFocus_saved_body :
  exists saved w1,
    saveFocus newFocusManager Examples.idle = Returned saved Examples.idle /\
    previousElement saved = Some Examples.bodyElement /\
    restoreFocus saved (withFocus Examples.buttonB Examples.idle) = Returned tt w1 /\
    focusLog w1 = [2; 40] /\
    activeElement w1 = Some Examples.buttonB.
Proof. eexists. eexists. repeat split. Qed.

(** *** trapFocus *)

Lemma index_head {A} (l : list A) : index l 0 = head l.
Proof. unfold index. simpl. by rewrite head_lookup. Qed.

Lemma index_last {A} (l : list A) : index l (Z.of_nat (length l) - 1) = last l.
Proof.
  unfold index. destruct l as [|x l].
  - reflexivity.
  - rewrite last_lookup.
    replace (Z.of_nat (length (x :: l)) - 1 <? 0)%Z with false
      by (symmetry; apply Z.ltb_ge; simpl length; lia).
    f_equal. simpl length. lia.
Qed.

Lemma matches_selected e : matches focusableSelector e = true <-> selected e.
Proof.
  unfold matches, focusableSelector, selected. cbn [existsb matchesCompound].
  rewrite !orb_true_iff, andb_true_iff, negb_true_iff.
  rewrite !bool_decide_eq_true, bool_decide_eq_false.
  rewrite !elem_of_cons, elem_of_nil.
  intuition discriminate.
Qed.

Lemma querySelectorAll_selected el :
  querySelectorAll focusableSelector el = filter selected (descendants el).
Proof. apply list_filter_iff. intros e. apply matches_selected. Qed.

Lemma fresh_not_registered w t ty first last :
  closuresFresh w ->
  existsb (sameListener t ty (mkHandler (nextClosure w) first last)) (listeners w) = false.
Proof.
  unfold closuresFresh. intros Hfresh.
  induction Hfresh as [|l ls Hl _ IH]; [done|].
  cbn [existsb]. rewrite IH, orb_false_r.
  unfold sameListener. cbn [closureId].
  rewrite (bool_decide_eq_false_2 (closureId (callback l) = nextClosure w)) by lia.
  by rewrite andb_false_r.
Qed.

(** The handler closure a trapFocus call on [el] creates in world [w]. *)
Lemma trapFocus_run el w :
  hasDocument w = true ->
  closuresFresh w ->
  let fs := querySelectorAll focusableSelector el in
  let h := mkHandler (nextClosure w) (head fs) (last fs) in
  let installed :=
    withListeners (listeners w ++ [mkListener (nodeId (elementOf el)) "keydown" h])
                  (S (nextClosure w)) w in
  trapFocus (Some el) w
  = Returned (removeEventListener (elementOf el) "keydown" h)
             (match head fs with
              | Some f => focusingSteps f installed
              | None => installed
              end).
Proof.
  intros Hdoc Hfresh fs h installed.
  unfold trapFocus, documentDefined, mbind, JS_bind, gets.
  rewrite Hdoc. cbn [negb].
  rewrite index_head, index_last. fold fs.
  unfold newClosure. fold h.
  unfold addEventListener, modify. cbn [listeners withListeners].
  unfold h at 1. rewrite fresh_not_registered by done. fold h.
  cbn [nextClosure withListeners]. fold installed.
  destruct (head fs); reflexivity.
Qed.

(** C2 fails as stated.  In a container holding a span with
    tabindex -2, an area with href and a button, the selector list
    selects all three and the trap calls focus() on the span, whose
    tabindex is negative and which takes the focus; anchors with href,
    buttons, inputs, selects, textareas and elements with a
    non-negative tabindex make up only the button. *)
Lemma trapFocus_selector_counterexample :
  querySelectorAll focusableSelector Examples.oddContainer
  = [Examples.spanMinusTwo; Examples.areaLink; Examples.plainButton] /\
  specFocusableSet Examples.oddContainer = [Examples.plainButton] /\
  tabIndex Examples.spanMinusTwo = (-2)%Z /\
  tagName Examples.areaLink <> "A" /\
  exists release w1,
    trapFocus (Some Examples.oddContainer) Examples.page = Returned release w1 /\
    focusLog w1 = [nodeId Examples.spanMinusTwo] /\
    activeElement w1 = Some Examples.spanMinusTwo.
Proof.
  split; [by vm_compute|].
  split; [by vm_compute|].
  split; [reflexivity|].
  split; [discriminate|].
  eexists. eexists. split; [by vm_compute|]. split; reflexivity.
Qed.

(** C2, amended.  With a document present, activating the trap on a
    container computes the focusable set as exactly the descendants
    the selector list selects, in document order: button, input,
    select and textarea elements, every element with an href
    attribute, and every element with a tabindex attribute whose value
    is not the string -1.  The handler closes over the first and the
    last element of that set, and focus() is called at once on the
    first one when the set is not empty: that element is the active
    element afterwards when it can take focus, and the active element
    is unchanged when it cannot. *)
Theorem trapFocus_focusable_set (el : Node) (w : World) :
  hasDocument w = true ->
  closuresFresh w ->
  exists release w1 h,
    trapFocus (Some el) w = Returned release w1 /\
    querySelectorAll focusableSelector el = filter selected (descendants el) /\
    listeners w1
    = (listeners w ++ [mkListener (nodeId (elementOf el)) "keydown" h])%list /\
    firstFocusable h = head (filter selected (descendants el)) /\
    lastFocusable h = last (filter selected (descendants el)) /\
    match head (filter selected (descendants el)) with
    | Some f =>
        focusLog w1 = (focusLog w ++ [nodeId f])%list /\
        activeElement w1
        = (if focusableArea w (nodeId f) then Some f else activeElement w)
    | None =>
        focusLog w1 = focusLog w /\ activeElement w1 = activeElement w
    end.
Proof.
  intros Hdoc Hfresh.
  pose proof (trapFocus_run el w Hdoc Hfresh) as Hrun. cbv zeta in Hrun.
  rewrite querySelectorAll_selected in Hrun.
  destruct (head (filter selected (descendants el))) as [f|] eqn:Hhead;
    (eexists; eexists; eexists; split; [exact Hrun|]);
    (split; [apply querySelectorAll_selected|]).
  - rewrite focusingSteps_focusLog, focusingSteps_activeElement.
    rewrite (proj1 (focusingSteps_listeners _ _)).
    by repeat split.
  - by repeat split.
Qed.

(** On the dialog with the buttons B and C the set is [B; C], focus()
    is called on B, and B is the active element. *)
Lemma trapFocus_focusable_set_witness :
  exists release w1 h,
    trapFocus (Some Examples.dialog) Examples.page = Returned release w1 /\
    firstFocusable h = Some Examples.buttonB /\
    lastFocusable h = Some Examples.buttonC /\
    focusLog w1 = [nodeId Examples.buttonB] /\
    activeElement w1 = Some Examples.buttonB.
Proof.
  destruct (trapFocus_focusable_set Examples.dialog Examples.page eq_refl
              ltac:(constructor))
    as (release & w1 & h & Hrun & _ & _ & Hfirst & Hlast & Hlog & Hactive).
  exists release, w1, h.
  split; [exact Hrun|].
  split; [exact Hfirst|].
  split; [exact Hlast|].
  split; [exact Hlog | exact Hactive].
Defined.

(** In a dialog whose first button is disabled the selector list still
    selects that button: focus() is called on it, and the focus stays
    where it was. *)
Lemma trapFocus_disabled_first :
  querySelectorAll focusableSelector Examples.disabledDialog
  = [Examples.disabledButton; Examples.enabledButton] /\
  exists release w1,
    trapFocus (Some Examples.disabledDialog) Examples.idle = Returned release w1 /\
    focusLog w1 = [nodeId Examples.disabledButton] /\
    activeElement w1 = Some Examples.bodyElement.
Proof.
  split; [by vm_compute|].
  eexists. eexists. split; [by vm_compute|]. split; reflexivity.
Qed.

(** *** The keydown handler *)

Lemma handleKeyDown_other_key h e w :
  key e <> "Tab" -> handleKeyDown h e w = Returned e w.
Proof.
  intros Hkey. unfold handleKeyDown.
  by rewrite bool_decide_eq_false_2.
Qed.

Lemma handleKeyDown_tab h e w :
  hasDocument w = true ->
  key e = "Tab" ->
  handleKeyDown h e w
  = if strictEq (activeElement w)
                (if shiftKey e then firstFocusable h else lastFocusable h)
    then Returned (preventDefault e)
                  (match (if shiftKey e then lastFocusable h else firstFocusable h) with
                   | Some x => focusingSteps x w
                   | None => w
                   end)
    else Returned e w.
Proof.
  intros Hdoc Hkey. unfold handleKeyDown.
  rewrite bool_decide_eq_true_2 by done. cbn [negb].
  destruct (shiftKey e);
    unfold getActiveElement, mbind, JS_bind, gets; rewrite Hdoc;
    (destruct (strictEq _ _); [|done]).
  - by destruct (lastFocusable h).
  - by destruct (firstFocusable h).
Qed.

Lemma dispatch_single c h e w :
  keydownListeners c w = [mkListener (nodeId c) "keydown" h] ->
  dispatchKeyDown c e w = handleKeyDown h e w.
Proof.
  intros Hls. unfold dispatchKeyDown, mbind, JS_bind, gets.
  rewrite Hls. cbn [runListeners callback].
  unfold mbind, JS_bind, mret, JS_ret.
  by destruct (handleKeyDown h e w).
Qed.

Lemma dispatch_none c e w :
  keydownListeners c w = [] -> dispatchKeyDown c e w = Returned e w.
Proof.
  intros Hls. unfold dispatchKeyDown, mbind, JS_bind, gets. by rewrite Hls.
Qed.



(** With the disabled first button of the other dialog, a Tab press on
    its last button prevents the default and calls focus() on the
    disabled button: the focus stays on the last button. *)
Lemma handleKeyDown_disabled_target :
  exists release w1 h e' w',
    trapFocus (Some Examples.disabledDialog) Examples.idle = Returned release w1 /\
    listeners w1 = [mkListener (nodeId (elementOf Examples.disabledDialog)) "keydown" h] /\
    handleKeyDown h (Examples.tab false) (withFocus Examples.enabledButton w1)
    = Returned e' w' /\
    defaultPrevented e' = true /\
    focusLog w' = [31; 32; 31] /\
    activeElement w' = Some Examples.enabledButton.
Proof.
  eexists. eexists.
  exists (mkHandler 0 (Some Examples.disabledButton) (Some Examples.enabledButton)).
  eexists. eexists.
  split; [by vm_compute|].
  split; [reflexivity|].
  split; [by vm_compute|].
  by repeat split.
Qed.

(** *** Releasing the trap *)

Lemma filter_idem {A} (P : A -> Prop) `{!forall x, Decision (P x)} (l : list A) :
  filter P (filter P l) = filter P l.
Proof. by apply list_filter_filter_l. Qed.

Lemma release_fresh w t ty first last :
  closuresFresh w ->
  filter (fun l => sameListener t ty (mkHandler (nextClosure w) first last) l = false)
         (listeners w ++ [mkListener t ty (mkHandler (nextClosure w) first last)])%list
  = listeners w.
Proof.
  intros Hfresh. rewrite filter_app.
  rewrite filter_cons_False, filter_nil, app_nil_r.
  - unfold closuresFresh in Hfresh.
    induction Hfresh as [|l ls Hl _ IH]; [done|].
    rewrite filter_cons_True; [by rewrite IH|].
    unfold sameListener. cbn [closureId].
    rewrite (bool_decide_eq_false_2 (closureId (callback l) = nextClosure w)) by lia.
    by rewrite andb_false_r.
  - unfold sameListener. cbn [target eventType callback closureId].
    rewrite !bool_decide_eq_true_2 by done. discriminate.
Qed.

Lemma keydownListeners_released c h ls nc w :
  keydownListeners c
    (withListeners (filter (fun l => sameListener (nodeId c) "keydown" h l = false) ls) nc w)
  = filter (fun l => closureId (callback l) <> closureId h)
           (filter (fun l => target l = nodeId c /\ eventType l = "keydown") ls).
Proof.
  unfold keydownListeners. cbn [listeners withListeners].
  rewrite !list_filter_filter. apply list_filter_iff.
  intros l. unfold sameListener.
  rewrite andb_false_iff, andb_false_iff, !bool_decide_eq_false.
  tauto.
Qed.

(** C8: the function trapFocus returns removes the keydown listener the
    call installed and nothing else.  Called at once it leaves the
    listeners as they were before the activation; called in any later
    world it leaves on the container every keydown listener except
    this one, so that a key press reaching a container that had only
    this listener is handed back untouched; and calling it a second
    time returns normally and changes nothing. *)
Theorem trapFocus_release (el : Node) (w0 : World) :
  hasDocument w0 = true ->
  closuresFresh w0 ->
  exists release w1 h,
    trapFocus (Some el) w0 = Returned release w1 /\
    listeners w1
    = (listeners w0 ++ [mkListener (nodeId (elementOf el)) "keydown" h])%list /\
    (exists w2, release w1 = Returned tt w2 /\ listeners w2 = listeners w0) /\
    (forall later,
       exists w2,
         release later = Returned tt w2 /\
         keydownListeners (elementOf el) w2
         = filter (fun l => closureId (callback l) <> closureId h)
                  (keydownListeners (elementOf el) later) /\
         (keydownListeners (elementOf el) later
          = [mkListener (nodeId (elementOf el)) "keydown" h] ->
          forall e, dispatchKeyDown (elementOf el) e w2 = Returned e w2) /\
         release w2 = Returned tt w2).
Proof.
  intros Hdoc Hfresh.
  pose proof (trapFocus_run el w0 Hdoc Hfresh) as Hrun. cbv zeta in Hrun.
  eexists. eexists.
  exists (mkHandler (nextClosure w0)
                    (head (querySelectorAll focusableSelector el))
                    (last (querySelectorAll focusableSelector el))).
  split; [exact Hrun|].
  split; [destruct (head _); [apply focusingSteps_listeners | done]|].
  split.
  - eexists. split; [reflexivity|].
    unfold removeEventListener, modify. cbn [listeners withListeners].
    destruct (head _); rewrite ?(proj1 (focusingSteps_listeners _ _));
      cbn [listeners withListeners]; by apply release_fresh.
  - intros later. eexists. split; [reflexivity|].
    split; [apply keydownListeners_released|].
    split.
    + intros Honly e. apply dispatch_none.
      rewrite keydownListeners_released.
      unfold keydownListeners in Honly. rewrite Honly.
      by rewrite filter_cons_False, filter_nil by (intros Hne; by apply Hne).
    + unfold removeEventListener, modify. cbn [listeners withListeners nextClosure].
      by rewrite filter_idem.
Qed.

(** On the dialog: activation adds one listener, the release removes it
    again, and a second release changes nothing. *)
Lemma trapFocus_release_witness :
  exists release w1 w2,
    trapFocus (Some Examples.dialog) Examples.page = Returned release w1 /\
    length (listeners w1) = 1 /\
    release w1 = Returned tt w2 /\
    listeners w2 = [] /\
    release w2 = Returned tt w2.
Proof.
  destruct (trapFocus_release Examples.dialog Examples.page eq_refl ltac:(constructor))
    as (release & w1 & h & Hrun & Hls & (w2 & Hrel & Hls2) & Hlater).
  exists release, w1, w2.
  split; [exact Hrun|].
  split; [by rewrite Hls|].
  split; [exact Hrel|].
  split; [exact Hls2|].
  destruct (Hlater w1) as (w2' & Hrel' & _ & _ & Hagain).
  rewrite Hrel in Hrel'. by injection Hrel' as <-.
Defined.

(** *** A container with nothing focusable *)

(** C9: when the selector list selects no descendant, activating the
    trap returns normally without a call of focus(): the active
    element and the focus log are as before.  With a document present
    the installed handler has captured undefined for both the first
    and the last element and, whatever the key and whatever holds
    focus, returns normally without preventing the default and
    without touching the world. *)
Theorem trapFocus_nothing_focusable (el : Node) (w0 : World) :
  querySelectorAll focusableSelector el = [] ->
  (exists release w1,
     trapFocus (Some el) w0 = Returned release w1 /\
     activeElement w1 = activeElement w0 /\
     focusLog w1 = focusLog w0)
  /\
  (hasDocument w0 = true ->
   closuresFresh w0 ->
   exists release w1 h,
     trapFocus (Some el) w0 = Returned release w1 /\
     listeners w1
     = (listeners w0 ++ [mkListener (nodeId (elementOf el)) "keydown" h])%list /\
     firstFocusable h = None /\
     lastFocusable h = None /\
     forall (w : World) (e : KeyboardEvent),
       hasDocument w = true -> handleKeyDown h e w = Returned e w).
Proof.
  intros Hnone. split.
  - unfold trapFocus, documentDefined, mbind, JS_bind, gets.
    destruct (hasDocument w0); cbn [negb].
    + rewrite Hnone. cbn [index length Z.of_nat Z.sub Z.ltb Z.compare Z.opp Z.add
                           Z.pos_sub lookup list_lookup Z.to_nat newClosure].
      unfold addEventListener, modify.
      cbn [listeners withListeners].
      destruct (existsb _ _); eexists; eexists; (split; [reflexivity|]); by split.
    + eexists. eexists. split; [reflexivity|]. by split.
  - intros Hdoc Hfresh.
    pose proof (trapFocus_run el w0 Hdoc Hfresh) as Hrun. cbv zeta in Hrun.
    rewrite Hnone in Hrun. cbn [head last] in Hrun.
    eexists. eexists. eexists. split; [exact Hrun|].
    repeat split.
    intros w e Hdocw.
    destruct (decide (key e = "Tab")) as [Hkey|Hkey].
    + rewrite (handleKeyDown_tab _ e w Hdocw Hkey).
      cbn [firstFocusable lastFocusable].
      by destruct (shiftKey e), (activeElement w).
    + by apply handleKeyDown_other_key.
Qed.

(** A container holding only a paragraph. *)
Lemma trapFocus_nothing_focusable_witness :
  exists release w1 h,
    trapFocus (Some Examples.textOnly) Examples.page = Returned release w1 /\
    activeElement w1 = None /\
    focusLog w1 = [] /\
    firstFocusable h = None /\
    lastFocusable h = None /\
    handleKeyDown h (Examples.tab true) w1 = Returned (Examples.tab true) w1 /\
    handleKeyDown h (Examples.tab false) w1 = Returned (Examples.tab false) w1.
Proof.
  destruct (trapFocus_nothing_focusable Examples.textOnly Examples.page eq_refl)
    as [(release0 & w0 & Hrun0 & Hactive & Hlog) Hhandler].
  destruct (Hhandler eq_refl ltac:(constructor))
    as (release & w1 & h & Hrun & _ & Hfirst & Hlast & Hnoop).
  rewrite Hrun0 in Hrun. injection Hrun as <- <-.
  exists release0, w0, h.
  split; [exact Hrun0|].
  split; [exact Hactive|].
  split; [exact Hlog|].
  split; [exact Hfirst|].
  split; [exact Hlast|].
  assert (Hdoc : hasDocument w0 = true).
  { vm_compute in Hrun0. by injection Hrun0 as _ <-. }
  split; by apply Hnoop.
Defined.

(** *** The invariant and the whole scenario *)

(** trapFocus and the release function preserve the freshness of closure
    identities the theorems above assume. *)
Lemma trapFocus_preserves_closuresFresh element w :
  closuresFresh w ->
  closuresFresh (finalState (trapFocus element w))
  /\ forall release later,
       value (trapFocus element w) = Some release ->
       closuresFresh later -> closuresFresh (finalState (release later)).
Proof.
  intros Hfresh.
  destruct element as [el|]; [destruct (hasDocument w) eqn:Hdoc|].
  - rewrite (trapFocus_run el w Hdoc Hfresh). cbn [finalState value]. split.
    + assert (Hnew : closuresFresh
                (withListeners
                   (listeners w ++
                      [mkListener (nodeId (elementOf el)) "keydown"
                         (mkHandler (nextClosure w)
                            (head (querySelectorAll focusableSelector el))
                            (last (querySelectorAll focusableSelector el)))])
                   (S (nextClosure w)) w)).
      { unfold closuresFresh in *. cbn [listeners nextClosure withListeners].
        apply Forall_app. split.
        - eapply Forall_impl; [exact Hfresh|]. cbn. intros; lia.
        - repeat constructor. }
      destruct (head _) as [first|]; [|done].
      unfold closuresFresh.
      by destruct (focusingSteps_listeners first
                     (withListeners
                        (listeners w ++
                           [mkListener (nodeId (elementOf el)) "keydown"
                              (mkHandler (nextClosure w) (Some first)
                                 (last (querySelectorAll focusableSelector el)))])
                        (S (nextClosure w)) w)) as [-> ->].
    + intros release later [= <-] Hlater.
      unfold closuresFresh in *. cbn [finalState removeEventListener modify].
      cbn [listeners nextClosure withListeners].
      rewrite Forall_forall in *. intros l Hl.
      apply list_elem_of_filter in Hl as [_ Hl]. by apply Hlater.
  - unfold trapFocus, documentDefined, mbind, JS_bind, gets. rewrite Hdoc.
    cbn. split; [exact Hfresh|]. by intros release later [= <-] Hlater.
  - cbn. split; [exact Hfresh|]. by intros release later [= <-] Hlater.
Qed.

(** The scenario of the modal dialog, run on the example page with the
    opener focused: focus goes to B on activation, to C on Shift+Tab
    with the default prevented, and back to the opener at the end; no
    listener is left behind. *)
Example modalScenario_run :
  exists w,
    Examples.modalScenario (withFocus Examples.opener Examples.page)
    = Returned (preventDefault (Examples.tab true)) w /\
    focusLog w = [5; 2; 3; 5] /\
    activeElement w = Some Examples.opener /\
    listeners w = [].
Proof. eexists. split; [by vm_compute|]. by repeat split. Qed.

End FocusFacts.

(** ** Screen-reader announcements *)

Section ScreenReaderFacts.
Import Dom ScreenReader.

(** *** The timer queue *)

Lemma insertTimer_elem_of t ts x :
  x ∈ insertTimer t ts <-> x = t \/ x ∈ ts.
Proof.
  induction ts as [|t' ts IH]; cbn [insertTimer].
  - rewrite list_elem_of_singleton, elem_of_nil. tauto.
  - destruct (due t' <=? due t)%Z.
    + rewrite !elem_of_cons, IH. tauto.
    + rewrite !elem_of_cons. tauto.
Qed.

Lemma insertTimer_sorted t ts :
  StronglySorted (fun a b => (due a <= due b)%Z) ts ->
  StronglySorted (fun a b => (due a <= due b)%Z) (insertTimer t ts).
Proof.
  induction 1 as [|t' ts Hsorted IH Hall]; cbn [insertTimer].
  - repeat constructor.
  - destruct (due t' <=? due t)%Z eqn:Hle.
    + constructor; [exact IH|].
      apply Forall_forall. intros x Hx.
      apply insertTimer_elem_of in Hx as [->|Hx].
      * by apply Z.leb_le.
      * rewrite Forall_forall in Hall. by apply Hall.
    + apply Z.leb_gt in Hle.
      constructor; [by constructor|].
      constructor; [lia|].
      eapply Forall_impl; [exact Hall|]. cbn. intros; lia.
Qed.

(** A timer callback leaves the children of the body except the one it
    removes; without a body it throws before removing anything. *)
Lemma fire_body t w c :
  c ∈ bodyChildren (fire t w)
  <-> c ∈ bodyChildren w /\ (hasBody w = true -> nodeId c <> nodeId (removes t)).
Proof.
  unfold fire, removeChild.
  destruct (hasBody w); cbn [negb].
  - destruct (existsb _ (bodyChildren w)) eqn:Hchild; cbn [bodyChildren withBody withTimers].
    + rewrite list_elem_of_filter. tauto.
    + split; [|tauto]. intros Hc. split; [done|]. intros _ Hid.
      assert (existsb (fun c => bool_decide (nodeId c = nodeId (removes t)))
                      (bodyChildren w) = true) as Hex; [|congruence].
      apply existsb_exists. exists c. split; [by apply list_elem_of_In|].
      by apply bool_decide_eq_true_2.
  - cbn [bodyChildren withBody withTimers]. intuition discriminate.
Qed.

Lemma fire_hasBody t w : hasBody (fire t w) = hasBody w.
Proof.
  unfold fire, removeChild.
  destruct (hasBody w) eqn:Hbody; cbn [negb]; [|by cbn].
  destruct (existsb _ _); by cbn.
Qed.

Lemma runTimers_body_subset now ts w c :
  c ∈ bodyChildren (runTimers now ts w) -> c ∈ bodyChildren w.
Proof.
  revert w. induction ts as [|t ts IH]; intros w; cbn [runTimers].
  - done.
  - destruct (due t <=? now)%Z; [|done].
    intros Hc. apply IH in Hc. by apply fire_body in Hc as [? _].
Qed.

(** A child stays as long as no due timer removes it. *)
Lemma runTimers_keeps now ts w c :
  c ∈ bodyChildren w ->
  (forall t, t ∈ ts -> (due t <= now)%Z -> nodeId (removes t) <> nodeId c) ->
  c ∈ bodyChildren (runTimers now ts w).
Proof.
  revert w. induction ts as [|t ts IH]; intros w Hc Hother; cbn [runTimers].
  - done.
  - destruct (due t <=? now)%Z eqn:Hdue; [|done].
    apply IH.
    + apply fire_body. split; [done|].
      intros _ Hid. apply (Hother t); [by left | by apply Z.leb_le | done].
    + intros t' Ht'. apply Hother. by right.
Qed.

(** A due timer of a sorted queue has removed its element from the
    body. *)
Lemma runTimers_removes now ts w t c :
  hasBody w = true ->
  StronglySorted (fun a b => (due a <= due b)%Z) ts ->
  t ∈ ts ->
  (due t <= now)%Z ->
  c ∈ bodyChildren (runTimers now ts w) ->
  nodeId c <> nodeId (removes t).
Proof.
  intros Hbody Hsorted. revert w Hbody.
  induction Hsorted as [|t0 ts Hsorted IH Hall]; intros w Hbody Ht Hdue Hc.
  - by apply elem_of_nil in Ht.
  - cbn [runTimers] in Hc.
    apply elem_of_cons in Ht as [->|Ht].
    + rewrite (proj2 (Z.leb_le _ _) Hdue) in Hc.
      apply runTimers_body_subset in Hc. apply fire_body in Hc as [_ Hc]. by apply Hc.
    + rewrite Forall_forall in Hall. specialize (Hall t Ht). cbn in Hall.
      rewrite (proj2 (Z.leb_le (due t0) now)) in Hc by lia.
      apply (IH (fire t0 w)); [by rewrite fire_hasBody|done..].
Qed.

(** *** announceToScreenReader *)

Lemma fresh_children_kept w :
  nodesFresh w ->
  filter (fun c => nodeId c <> nextNode w) (bodyChildren w) = bodyChildren w.
Proof.
  intros [Hbody _].
  induction Hbody as [|c cs Hc _ IH]; [done|].
  rewrite filter_cons_True by lia. by rewrite IH.
Qed.

(** The run of an announcement that is not skipped, in a document with
    a body. *)
Lemma announceToScreenReader_run message priority w :
  hasDocument w = true -> hasBody w = true -> message <> "" -> nodesFresh w ->
  announceToScreenReader message priority w
  = Returned tt
      (withTimers (clock w)
         (insertTimer
            (mkTimer (clock w + 1000)
                     (liveRegion (nextNode w) message (default Polite priority)))
            (timers w))
         (uncaught w)
         (withBody
            (bodyChildren w ++ [liveRegion (nextNode w) message (default Polite priority)])
            (S (nextNode w)) w)).
Proof.
  intros Hdoc Hbody Hmsg Hfresh.
  unfold announceToScreenReader, documentDefined, mbind, JS_bind, gets.
  rewrite Hdoc. cbn [negb]. rewrite bool_decide_eq_false_2 by done.
  unfold createElement, appendChild, setTimeout, modify, liveRegion.
  cbn [hasBody bodyChildren withBody nextNode nodeId setTextContent assignStyle
       setAttribute clock timers uncaught].
  rewrite Hbody. cbn [negb].
  rewrite (fresh_children_kept w Hfresh). reflexivity.
Qed.

(** In a document without a body the read of document.body.appendChild
    throws a TypeError: nothing is appended, no timer is set and
    nothing is logged. *)
Lemma announceToScreenReader_without_body message priority w :
  hasDocument w = true -> hasBody w = false -> message <> "" ->
  exists w1,
    announceToScreenReader message priority w = Thrown TypeError w1 /\
    bodyChildren w1 = bodyChildren w /\
    timers w1 = timers w /\
    console w1 = console w.
Proof.
  intros Hdoc Hbody Hmsg.
  unfold announceToScreenReader, documentDefined, mbind, JS_bind, gets.
  rewrite Hdoc. cbn [negb]. rewrite bool_decide_eq_false_2 by done.
  unfold createElement, appendChild. cbn [hasBody withBody].
  rewrite Hbody. cbn [negb].
  eexists. split; [reflexivity|]. by repeat split.
Qed.

Lemma announceToScreenReader_skipped message priority w :
  hasDocument w = false \/ message = "" ->
  exists entry,
    level entry = LogWarn /\
    announceToScreenReader message priority w
    = Returned tt (withConsole (console w ++ [entry]) w).
Proof.
  intros Hskip.
  unfold announceToScreenReader, documentDefined, mbind, JS_bind, gets.
  destruct (hasDocument w) eqn:Hdoc; cbn [negb].
  - destruct Hskip as [?| ->]; [done|].
    eexists. split; [|reflexivity]. reflexivity.
  - eexists. split; [|reflexivity]. reflexivity.
Qed.

(** C7: without a document, or with an empty message, the call logs one
    warning, changes nothing else in the world and returns normally.
    Otherwise, in a document that has a body, it returns normally
    having created exactly one element, with role status, the
    requested aria-live value (polite when none is given) and the
    message as its text, appended as the last child of the body; the
    element is still there while less than 1000 ms have passed and is
    gone once 1000 ms have passed. *)
Theorem announceToScreenReader_spec
        (message : string) (priority : option Priority) (w : World) :
  (hasDocument w = false \/ message = "" ->
   exists entry,
     level entry = LogWarn /\
     announceToScreenReader message priority w
     = Returned tt (withConsole (console w ++ [entry]) w))
  /\
  (hasDocument w = true -> hasBody w = true -> message <> "" ->
   nodesFresh w -> timersSorted w ->
   exists el w1,
     announceToScreenReader message priority w = Returned tt w1 /\
     nodeId el = nextNode w /\
     nextNode w1 = S (nextNode w) /\
     getAttribute "role" el = Some "status" /\
     getAttribute "aria-live" el = Some (priorityString (default Polite priority)) /\
     textContent el = message /\
     bodyChildren w1 = (bodyChildren w ++ [el])%list /\
     console w1 = console w /\
     (forall dt, (dt < 1000)%Z -> el ∈ bodyChildren (advance dt w1)) /\
     (forall dt c, (1000 <= dt)%Z ->
                   c ∈ bodyChildren (advance dt w1) -> nodeId c <> nodeId el)).
Proof.
  split; [apply announceToScreenReader_skipped|].
  intros Hdoc Hbody Hmsg Hfresh Hsorted.
  pose proof (announceToScreenReader_run message priority w Hdoc Hbody Hmsg Hfresh) as Hrun.
  set (el := liveRegion (nextNode w) message (default Polite priority)) in *.
  eexists el, _. split; [exact Hrun|].
  repeat split.
  - intros dt Hdt. unfold advance. apply runTimers_keeps.
    + cbn. apply elem_of_app. right. by left.
    + intros t Ht Hdue. cbn [timers withTimers] in Ht.
      apply insertTimer_elem_of in Ht as [->|Ht].
      { cbn in Hdue. lia. }
      destruct Hfresh as [_ Htimers]. rewrite Forall_forall in Htimers.
      specialize (Htimers t Ht). cbn. lia.
  - intros dt c Hdt Hc. unfold advance in Hc.
    change (nodeId el) with (nodeId (removes (mkTimer (clock w + 1000) el))).
    eapply runTimers_removes; [| | | |exact Hc].
    + exact Hbody.
    + cbn [timers withTimers]. by apply insertTimer_sorted.
    + cbn [timers withTimers]. apply insertTimer_elem_of. by left.
    + cbn. lia.
Qed.

(** An assertive announcement on the example page, and a call that is
    skipped for its empty message. *)
Lemma announceToScreenReader_spec_witness :
  (exists entry,
     level entry = LogWarn /\
     announceToScreenReader "" None Examples.page
     = Returned tt (withConsole (console Examples.page ++ [entry]) Examples.page))
  /\
  (exists el w1,
     announceToScreenReader "Saved" (Some Assertive) Examples.page = Returned tt w1 /\
     getAttribute "role" el = Some "status" /\
     getAttribute "aria-live" el = Some "assertive" /\
     bodyChildren w1 = [el] /\
     el ∈ bodyChildren (advance 999 w1) /\
     bodyChildren (advance 1000 w1) = []).
Proof.
  split.
  - apply (proj1 (announceToScreenReader_spec "" None Examples.page)).
    right. reflexivity.
  - assert (Hfresh : nodesFresh Examples.page) by (split; constructor).
    assert (Hsorted : timersSorted Examples.page) by constructor.
    destruct (proj2 (announceToScreenReader_spec "Saved" (Some Assertive) Examples.page)
                eq_refl eq_refl ltac:(discriminate) Hfresh Hsorted)
      as (el & w1 & Hrun & _ & _ & Hrole & Hlive & _ & Hbody & _ & Hkeep & Hgone).
    exists el, w1.
    split; [exact Hrun|].
    split; [exact Hrole|].
    split; [exact Hlive|].
    split; [exact Hbody|].
    split; [apply Hkeep; lia|].
    injection Hrun as <-. reflexivity.
Defined.

(** On the page whose document has no body yet the call throws. *)
Lemma announceToScreenReader_bodyless :
  exists w1,
    announceToScreenReader "Saved" None Examples.bodyless = Thrown TypeError w1 /\
    bodyChildren w1 = [] /\ timers w1 = [].
Proof. eexists. split; [by vm_compute|]. by split. Qed.

(** *** The invariants are kept *)

Lemma sorted_suffix (l1 l2 : list Timer) :
  StronglySorted (fun a b => (due a <= due b)%Z) l2 ->
  l1 `suffix_of` l2 ->
  StronglySorted (fun a b => (due a <= due b)%Z) l1.
Proof.
  intros Hsorted [k ->].
  induction k as [|t k IH]; [done|].
  apply IH. by apply StronglySorted_inv in Hsorted as [? _].
Qed.

Lemma fire_nextNode t w : nextNode (fire t w) = nextNode w.
Proof.
  unfold fire, removeChild.
  destruct (hasBody w); cbn [negb]; [|done].
  by destruct (existsb _ _).
Qed.

Lemma runTimers_nextNode now ts w : nextNode (runTimers now ts w) = nextNode w.
Proof.
  revert w. induction ts as [|t ts IH]; intros w; cbn [runTimers]; [done|].
  destruct (due t <=? now)%Z; [|done]. by rewrite IH, fire_nextNode.
Qed.

Lemma runTimers_timers now ts w : timers (runTimers now ts w) `suffix_of` ts.
Proof.
  revert w. induction ts as [|t ts IH]; intros w; cbn [runTimers]; [done|].
  destruct (due t <=? now)%Z; [|done]. by apply suffix_cons_r.
Qed.

Lemma announceToScreenReader_preserves message priority w :
  nodesFresh w -> timersSorted w ->
  nodesFresh (finalState (announceToScreenReader message priority w))
  /\ timersSorted (finalState (announceToScreenReader message priority w)).
Proof.
  intros Hfresh Hsorted.
  destruct (hasDocument w) eqn:Hdoc; [destruct (decide (message = "")) as [Hmsg|Hmsg]|].
  - destruct (announceToScreenReader_skipped message priority w) as (entry & _ & ->);
      [by right | done].
  - destruct (hasBody w) eqn:Hhas.
    2:{ unfold announceToScreenReader, documentDefined, mbind, JS_bind, gets.
        rewrite Hdoc. cbn [negb]. rewrite bool_decide_eq_false_2 by done.
        unfold createElement, appendChild. cbn [hasBody withBody].
        rewrite Hhas. cbn [negb finalState].
        split; [|done].
        destruct Hfresh as [Hbody Htimers]. split; cbn.
        - eapply Forall_impl; [exact Hbody|]. cbn. intros; lia.
        - eapply Forall_impl; [exact Htimers|]. cbn. intros; lia. }
    rewrite announceToScreenReader_run by done. cbn [finalState].
    split; [|by apply insertTimer_sorted].
    destruct Hfresh as [Hbody Htimers]. split; cbn.
    + apply Forall_app. split.
      * eapply Forall_impl; [exact Hbody|]. cbn. intros; lia.
      * repeat constructor.
    + apply Forall_forall. intros t Ht.
      apply insertTimer_elem_of in Ht as [->|Ht]; [cbn; lia|].
      rewrite Forall_forall in Htimers. specialize (Htimers t Ht). cbn in *. lia.
  - destruct (announceToScreenReader_skipped message priority w) as (entry & _ & ->);
      [by left | done].
Qed.

Lemma advance_preserves dt w :
  nodesFresh w -> timersSorted w ->
  nodesFresh (advance dt w) /\ timersSorted (advance dt w).
Proof.
  intros [Hbody Htimers] Hsorted. unfold advance, nodesFresh, timersSorted.
  rewrite runTimers_nextNode.
  pose proof (runTimers_timers (clock w + dt) (timers w) w) as Hsuffix.
  repeat split.
  - apply Forall_forall. intros c Hc. apply runTimers_body_subset in Hc.
    rewrite Forall_forall in Hbody. by apply Hbody.
  - apply Forall_forall. intros t Ht.
    rewrite Forall_forall in Htimers. apply Htimers.
    destruct Hsuffix as [k ->]. apply elem_of_app. by right.
  - by eapply sorted_suffix.
Qed.

End ScreenReaderFacts.
